(** * Render-graph configuration scripts of Falcor/Mogwai

    The three Python scripts

      - [Source/Mogwai/Data/charvl.BSDFViewer.py]
      - [Source/Mogwai/Data/charvl.wireless.py]
      - [Tests/image_tests/renderpasses/graphs/VBufferRT.py]

    configure a render graph through the host engine's scripting API and
    then try to register it with the ambient session object [m].

    The scripts are embedded as computations in a state-and-exception monad
    [py] over a [World]: the host engine's state (loaded libraries and the
    graph objects, held by reference), the module's global namespace, and the
    sequence of API calls the host has received. *)

From Stdlib Require Import ZArith.
From stdpp Require Import gmap strings list fin_maps.

Open Scope string_scope.

(** ** Python values and exceptions *)

(** References to graph objects: a [RenderGraph] is a mutable object, the
    builder's local [g], the module-level variable and the argument of
    [m.addGraph] all alias the same one. *)
Abbreviation loc := nat.

(** The literal values the scripts put in option dictionaries:
    [True], [0] and the enum member [AccumulatePrecision.Double]. *)
Inductive value : Type :=
  | VBool (b : bool)
  | VInt (z : Z)
  | VEnum (enum member : string).

(** An exception carries the linearisation of its class (most specific class
    first), which is what an [except] clause inspects, and its message. *)
Record exn : Type := Exn { exn_mro : list string; exn_msg : string }.

Definition isinstance (e : exn) (cls : string) : bool :=
  bool_decide (cls ∈ exn_mro e).

Definition NameError (name : string) : exn :=
  Exn ["NameError"; "Exception"; "BaseException"]
      ("name '" ++ name ++ "' is not defined").

Definition AttributeError (attr : string) : exn :=
  Exn ["AttributeError"; "Exception"; "BaseException"]
      ("object has no attribute '" ++ attr ++ "'").

Definition TypeError (msg : string) : exn :=
  Exn ["TypeError"; "Exception"; "BaseException"] msg.

Definition RuntimeError (msg : string) : exn :=
  Exn ["RuntimeError"; "Exception"; "BaseException"] msg.

Inductive outcome (A : Type) : Type :=
  | Normal (a : A)
  | Raised (e : exn).
Arguments Normal {A} a.
Arguments Raised {A} e.

(** ** The render graph descriptor (spec, section 3) *)

(** Modelled from the spec: the pass object returned by [createPass], whose
    implementation is in the host engine: a type identifier and the mapping of
    options supplied at creation time. *)
Record Pass : Type := mkPass {
  pass_type : string;
  pass_options : gmap string value
}.

(** Modelled from the spec: the graph object behind [RenderGraph], whose
    implementation is in the host engine: a name, an ordered collection of
    named passes, the edges between ports and the marked output ports (both
    kept in call order, without repetition). *)
Record Graph : Type := mkGraph {
  graph_name : string;
  graph_passes : list (string * Pass);
  graph_edges : list (string * string);
  graph_outputs : list string
}.

(** The host engine as the scripts see it: the render-pass libraries loaded so
    far and the graph objects, by reference. *)
Record Host : Type := mkHost {
  libraries : list string;
  graphs : gmap nat Graph
}.

(** The ambient session object [m]. What its [addGraph] does is the host's
    business: it may change the host state in any way and may raise. *)
Record Session : Type := mkSession {
  addGraph : loc → Host → outcome unit * Host
}.

(** What a global name can be bound to. *)
Inductive object : Type :=
  | OGraph (g : loc)
  | OSession (s : Session)
  | OFunction (name : string)
  | OValue (v : value).

(** The calls that cross the scripting API, as the host receives them. *)
Inductive call : Type :=
  | CLoadRenderPassLibrary (lib : string)
  | CRenderGraph (name : string) (g : loc)
  | CCreatePass (type : string) (options : option (gmap string value))
  | CAddPass (g : loc) (p : Pass) (name : string)
  | CAddEdge (g : loc) (src dst : string)
  | CMarkOutput (g : loc) (port : string)
  | CAddGraph (g : loc).

Record World : Type := mkWorld {
  host : Host;
  globals : gmap string object;
  trace : list call
}.

(** ** The monad of script evaluation *)

(** A statement runs in a world and either completes or raises; the effects it
    had before raising stay. *)
Definition py (A : Type) : Type := World → outcome A * World.

#[global] Instance py_ret : MRet py := λ A a w, (Normal a, w).

#[global] Instance py_bind : MBind py := λ A B k c w,
  match c w with
  | (Normal a, w') => k a w'
  | (Raised e, w') => (Raised e, w')
  end.

Definition raise {A} (e : exn) : py A := λ w, (Raised e, w).

(** [try: body / except cls: handler] *)
Definition try_except {A} (body : py A) (cls : string) (handler : py A) : py A :=
  λ w,
    match body w with
    | (Normal a, w') => (Normal a, w')
    | (Raised e, w') => if isinstance e cls then handler w' else (Raised e, w')
    end.

(** The expression statement [None]. *)
Definition None_stmt : py unit := mret tt.

Definition load_global (name : string) : py object := λ w,
  match globals w !! name with
  | Some o => (Normal o, w)
  | None => (Raised (NameError name), w)
  end.

Definition store_global (name : string) (o : object) : py unit := λ w,
  (Normal tt, mkWorld (host w) (<[name := o]> (globals w)) (trace w)).

Definition log (c : call) : py unit := λ w,
  (Normal tt, mkWorld (host w) (globals w) (trace w ++ [c])).

Definition get_host : py Host := λ w, (Normal (host w), w).

Definition put_host (h : Host) : py unit := λ w,
  (Normal tt, mkWorld h (globals w) (trace w)).

(** Running host code: it sees and changes the host state only. *)
Definition in_host {A} (f : Host → outcome A * Host) : py A := λ w,
  let '(r, h) := f (host w) in (r, mkWorld h (globals w) (trace w)).

(** ** The scripting API of the host engine (spec, section 6) *)

Module Falcor.

Definition new_graph (name : string) : Graph := mkGraph name [] [] [].

(** Applies [f] to the graph object behind [g]. *)
Definition update_graph (g : loc) (f : Graph → Graph) : py unit := λ w,
  match graphs (host w) !! g with
  | Some d =>
      (Normal tt,
       mkWorld (mkHost (libraries (host w)) (<[g := f d]> (graphs (host w))))
               (globals w) (trace w))
  | None => (Raised (RuntimeError "invalid graph object"), w)
  end.

(** Modelled from the spec: [loadRenderPassLibrary(libraryFile)], implemented
    in the host engine, declares a native plugin dependency by filename. *)
Definition loadRenderPassLibrary (lib : string) : py unit :=
  log (CLoadRenderPassLibrary lib);;
  h ← get_host;
  put_host (mkHost (libraries h ++ [lib]) (graphs h)).

(** Modelled from the spec: [RenderGraph(name) -> Graph], implemented in the
    host engine, makes a new graph object with that name and nothing in it. *)
Definition RenderGraph (name : string) : py loc :=
  h ← get_host;
  let g := fresh (dom (graphs h)) in
  log (CRenderGraph name g);;
  put_host (mkHost (libraries h) (<[g := new_graph name]> (graphs h)));;
  mret g.

(** Modelled from the spec: [createPass(typeName, options?) -> Pass],
    implemented in the host engine; without [options] the mapping is empty. *)
Definition createPass (type : string) (options : option (gmap string value))
  : py Pass :=
  log (CCreatePass type options);;
  mret (mkPass type (default ∅ options)).

(** Modelled from the spec: [Graph.addPass(pass, name)], implemented in the
    host engine, appends the named pass to the graph's ordered collection. *)
Definition Graph_addPass (p : Pass) (name : string) (d : Graph) : Graph :=
  mkGraph (graph_name d) (graph_passes d ++ [(name, p)])
          (graph_edges d) (graph_outputs d).

Definition addPass (g : loc) (p : Pass) (name : string) : py unit :=
  log (CAddPass g p name);;
  update_graph g (Graph_addPass p name).

(** Modelled from the spec: [Graph.addEdge(srcPort, dstPort)], implemented in
    the host engine, adds the edge to the graph's set of edges. *)
Definition Graph_addEdge (src dst : string) (d : Graph) : Graph :=
  mkGraph (graph_name d) (graph_passes d)
          (if decide ((src, dst) ∈ graph_edges d) then graph_edges d
           else graph_edges d ++ [(src, dst)])
          (graph_outputs d).

Definition addEdge (g : loc) (src dst : string) : py unit :=
  log (CAddEdge g src dst);;
  update_graph g (Graph_addEdge src dst).

(** Modelled from the spec: [Graph.markOutput(port)], implemented in the host
    engine, adds the port to the graph's set of marked outputs. *)
Definition Graph_markOutput (port : string) (d : Graph) : Graph :=
  mkGraph (graph_name d) (graph_passes d) (graph_edges d)
          (if decide (port ∈ graph_outputs d) then graph_outputs d
           else graph_outputs d ++ [port]).

Definition markOutput (g : loc) (port : string) : py unit :=
  log (CMarkOutput g port);;
  update_graph g (Graph_markOutput port).

(** The enum member [AccumulatePrecision.Double]. *)
Module AccumulatePrecision.
Definition Double : value := VEnum "AccumulatePrecision" "Double".
End AccumulatePrecision.

(** [from falcor import *]: binds the names above; the embedding calls them
    directly, so nothing changes in the modelled namespace. *)
Definition from_falcor_import_star : py unit := mret tt.

End Falcor.

(** [o.addGraph(arg)] for a global [o]: the attribute exists on a session
  object only, and the bound method takes a graph. The argument expression is
  evaluated after the attribute is fetched. *)
Definition getattr_addGraph (o : object) : py Session :=
match o with
| OSession s => mret s
| _ => raise (AttributeError "addGraph")
end.

Definition call_addGraph (s : Session) (arg : object) : py unit :=
match arg with
| OGraph g => log (CAddGraph g);; in_host (addGraph s g)
| _ => raise (TypeError "addGraph(): incompatible function arguments")
end.

(** ** The scripts *)

Import Falcor.

(** [Source/Mogwai/Data/charvl.BSDFViewer.py] *)
Module charvl_BSDFViewer.

Definition render_graph_DefaultRenderGraph : py loc :=
  g ← RenderGraph "DefaultRenderGraph";
  BSDFViewer ← createPass "BSDFViewer" (Some {[ "materialID" := VInt 0 ]});
  addPass g BSDFViewer "BSDFViewer";;
  AccumulatePass ← createPass "AccumulatePass"
    (Some (<[ "precisionMode" := AccumulatePrecision.Double ]>
             {[ "enabled" := VBool true ]}));
  addPass g AccumulatePass "AccumulatePass";;
  addEdge g "BSDFViewer.output" "AccumulatePass.input";;
  markOutput g "AccumulatePass.output";;
  mret g.

Definition module_body : py unit :=
  from_falcor_import_star;;
  store_global "render_graph_DefaultRenderGraph"
               (OFunction "render_graph_DefaultRenderGraph");;
  g ← render_graph_DefaultRenderGraph;
  store_global "DefaultRenderGraph" (OGraph g);;
  try_except
    (m ← load_global "m";
     addGraph_m ← getattr_addGraph m;
     DefaultRenderGraph ← load_global "DefaultRenderGraph";
     call_addGraph addGraph_m DefaultRenderGraph)
    "NameError"
    None_stmt.

End charvl_BSDFViewer.

(** [Source/Mogwai/Data/charvl.wireless.py] *)
Module charvl_wireless.

Definition render_graph_DefaultRenderGraph : py loc :=
  g ← RenderGraph "DefaultRenderGraph";
  wireframe ← createPass "wireframe" None;
  addPass g wireframe "wireframe";;
  markOutput g "wireframe.output";;
  mret g.

Definition module_body : py unit :=
  from_falcor_import_star;;
  store_global "render_graph_DefaultRenderGraph"
               (OFunction "render_graph_DefaultRenderGraph");;
  g ← render_graph_DefaultRenderGraph;
  store_global "DefaultRenderGraph" (OGraph g);;
  try_except
    (m ← load_global "m";
     addGraph_m ← getattr_addGraph m;
     DefaultRenderGraph ← load_global "DefaultRenderGraph";
     call_addGraph addGraph_m DefaultRenderGraph)
    "NameError"
    None_stmt.

End charvl_wireless.

(** [Tests/image_tests/renderpasses/graphs/VBufferRT.py] *)
Module VBufferRT_py.

Definition render_graph_VBufferRT : py loc :=
  loadRenderPassLibrary "GBuffer.dll";;
  g ← RenderGraph "VBufferRT";
  p ← createPass "VBufferRT" None;
  addPass g p "VBufferRT";;
  markOutput g "VBufferRT.vbuffer";;
  markOutput g "VBufferRT.depth";;
  markOutput g "VBufferRT.mvec";;
  markOutput g "VBufferRT.viewW";;
  mret g.

Definition module_body : py unit :=
  from_falcor_import_star;;
  store_global "render_graph_VBufferRT" (OFunction "render_graph_VBufferRT");;
  g ← render_graph_VBufferRT;
  store_global "VBufferRT" (OGraph g);;
  try_except
    (m ← load_global "m";
     addGraph_m ← getattr_addGraph m;
     VBufferRT ← load_global "VBufferRT";
     call_addGraph addGraph_m VBufferRT)
    "NameError"
    None_stmt.

End VBufferRT_py.

(** The three scripts, to state what holds of each of them. *)
Inductive script : Type :=
  | BSDFViewer_script
  | wireless_script
  | VBufferRT_script.

(** The builder function a script defines. *)
Definition builder (s : script) : py loc :=
  match s with
  | BSDFViewer_script => charvl_BSDFViewer.render_graph_DefaultRenderGraph
  | wireless_script => charvl_wireless.render_graph_DefaultRenderGraph
  | VBufferRT_script => VBufferRT_py.render_graph_VBufferRT
  end.

Definition builder_name (s : script) : string :=
  match s with
  | BSDFViewer_script => "render_graph_DefaultRenderGraph"
  | wireless_script => "render_graph_DefaultRenderGraph"
  | VBufferRT_script => "render_graph_VBufferRT"
  end.

(** The module-level variable the script binds the built graph to. *)
Definition graph_variable (s : script) : string :=
  match s with
  | BSDFViewer_script => "DefaultRenderGraph"
  | wireless_script => "DefaultRenderGraph"
  | VBufferRT_script => "VBufferRT"
  end.

(** Evaluating the whole script. *)
Definition run (s : script) : py unit :=
  match s with
  | BSDFViewer_script => charvl_BSDFViewer.module_body
  | wireless_script => charvl_wireless.module_body
  | VBufferRT_script => VBufferRT_py.module_body
  end.

(** The world in which the [try] statement of script [s] starts, when the
    script was started in [w] and its builder returned [g] and left [wb]:
    the builder changes no global, the module binds two. *)
Definition before_try (s : script) (w : World) (g : loc) (wb : World) : World :=
  mkWorld (host wb)
          (<[graph_variable s := OGraph g]>
             (<[builder_name s := OFunction (builder_name s)]> (globals w)))
          (trace wb).

(** ** Reading the call sequence *)

Definition is_RenderGraph (c : call) : bool :=
  match c with CRenderGraph _ _ => true | _ => false end.

Definition is_addGraph (c : call) : bool :=
  match c with CAddGraph _ => true | _ => false end.

(** The ports a call refers to, with the graph it refers to them in. *)
Definition ports_of_call (c : call) : list (loc * string) :=
  match c with
  | CAddEdge g src dst => [(g, src); (g, dst)]
  | CMarkOutput g port => [(g, port)]
  | _ => []
  end.

(** The names of the passes that the calls [cs] added to graph [g]. *)
Definition added_passes (g : loc) (cs : list call) : list string :=
  flat_map (λ c, match c with
                 | CAddPass g' _ name => if decide (g' = g) then [name] else []
                 | _ => []
                 end) cs.

(** A port reference is [<passName>.<portName>]. *)
Definition port_of_pass (port pass : string) : bool :=
  String.prefix (pass ++ ".") port.

(** Every port a call of [cs] refers to belongs to a pass that an earlier
    call added to the same graph; [seen] are the calls made before [cs]. *)
Fixpoint ports_known (seen cs : list call) : bool :=
  match cs with
  | [] => true
  | c :: cs' =>
      forallb (λ gp, existsb (port_of_pass gp.2) (added_passes gp.1 seen))
              (ports_of_call c)
      && ports_known (seen ++ [c]) cs'
  end.

(** ** What the scripts are shown to do *)

(** The descriptor, the libraries and the call sequence that each builder is
    shown to produce ([builder_run] below); [g] is the new graph object. *)
Definition built_graph (s : script) : Graph :=
  match s with
  | BSDFViewer_script =>
      mkGraph "DefaultRenderGraph"
        [("BSDFViewer", mkPass "BSDFViewer" {[ "materialID" := VInt 0 ]});
         ("AccumulatePass",
          mkPass "AccumulatePass"
            (<[ "precisionMode" := AccumulatePrecision.Double ]>
               {[ "enabled" := VBool true ]}))]
        [("BSDFViewer.output", "AccumulatePass.input")]
        ["AccumulatePass.output"]
  | wireless_script =>
      mkGraph "DefaultRenderGraph" [("wireframe", mkPass "wireframe" ∅)] []
        ["wireframe.output"]
  | VBufferRT_script =>
      mkGraph "VBufferRT" [("VBufferRT", mkPass "VBufferRT" ∅)] []
        ["VBufferRT.vbuffer"; "VBufferRT.depth"; "VBufferRT.mvec";
         "VBufferRT.viewW"]
  end.

Definition loaded_libraries (s : script) : list string :=
  match s with
  | VBufferRT_script => ["GBuffer.dll"]
  | _ => []
  end.

Definition builder_calls (s : script) (g : loc) : list call :=
  match s with
  | BSDFViewer_script =>
      [CRenderGraph "DefaultRenderGraph" g;
       CCreatePass "BSDFViewer" (Some {[ "materialID" := VInt 0 ]});
       CAddPass g (mkPass "BSDFViewer" {[ "materialID" := VInt 0 ]}) "BSDFViewer";
       CCreatePass "AccumulatePass"
         (Some (<[ "precisionMode" := AccumulatePrecision.Double ]>
                  {[ "enabled" := VBool true ]}));
       CAddPass g
         (mkPass "AccumulatePass"
            (<[ "precisionMode" := AccumulatePrecision.Double ]>
               {[ "enabled" := VBool true ]}))
         "AccumulatePass";
       CAddEdge g "BSDFViewer.output" "AccumulatePass.input";
       CMarkOutput g "AccumulatePass.output"]
  | wireless_script =>
      [CRenderGraph "DefaultRenderGraph" g;
       CCreatePass "wireframe" None;
       CAddPass g (mkPass "wireframe" ∅) "wireframe";
       CMarkOutput g "wireframe.output"]
  | VBufferRT_script =>
      [CLoadRenderPassLibrary "GBuffer.dll";
       CRenderGraph "VBufferRT" g;
       CCreatePass "VBufferRT" None;
       CAddPass g (mkPass "VBufferRT" ∅) "VBufferRT";
       CMarkOutput g "VBufferRT.vbuffer";
       CMarkOutput g "VBufferRT.depth";
       CMarkOutput g "VBufferRT.mvec";
       CMarkOutput g "VBufferRT.viewW"]
  end.

(** The world a builder leaves when started in [w]. *)
Definition after_builder (s : script) (w : World) : World :=
  let g := fresh (dom (graphs (host w))) in
  mkWorld
    (mkHost (libraries (host w) ++ loaded_libraries s)
            (<[g := built_graph s]> (graphs (host w))))
    (globals w)
    (trace w ++ builder_calls s g).

(** The [try] statement that ends script [s]. *)
Definition try_statement (s : script) : py unit :=
  try_except
    (m ← load_global "m";
     addGraph_m ← getattr_addGraph m;
     graph ← load_global (graph_variable s);
     call_addGraph addGraph_m graph)
    "NameError"
    None_stmt.

(** What [except NameError] does with the outcome of the guarded call. *)
Definition guard (r : outcome unit) : outcome unit :=
  match r with
  | Normal a => Normal a
  | Raised e => if isinstance e "NameError" then Normal tt else Raised e
  end.

(** ** Example hosts *)

(** A host that has loaded nothing and holds no graph. *)
Definition empty_host : Host := mkHost [] ∅.

(** A script evaluated outside the application: no [m]. *)
Definition standalone_world : World := mkWorld empty_host ∅ [].

(** A script evaluated by the application, which bound [m] to a session. *)
Definition session_world (ses : Session) : World :=
  mkWorld empty_host {[ "m" := OSession ses ]} [].

(** A session that accepts every graph and leaves the host as it is. *)
Definition accepting_session : Session := mkSession (λ _ h, (Normal tt, h)).

(** A session whose [addGraph] raises [e]. *)
Definition raising_session (e : exn) : Session :=
  mkSession (λ _ h, (Raised e, h)).

(** ** Evaluating scripts one after the other *)

Definition is_loadRenderPassLibrary (c : call) : bool :=
  match c with CLoadRenderPassLibrary _ => true | _ => false end.


(** [n] evaluations of the same script in a row. *)
Fixpoint run_n (n : nat) (s : script) : py unit :=
  match n with
  | 0 => mret tt
  | S n' => run s;; run_n n' s
  end.

(** A host that already holds a graph and a library, with a global of the
    same name as a local of the BSDF-viewer builder. *)
Definition busy_world : World :=
  mkWorld (mkHost ["Utils.dll"]
                  {[ 0 := mkGraph "Existing" [("ToneMapper", mkPass "ToneMapper" ∅)]
                                  [] ["ToneMapper.dst"] ]})
          {[ "g" := OValue (VInt 7) ]} [].

(** A session that refuses graphs without marked outputs accepts the graph of
    each of the three scripts: the graph it is handed has them already. *)
Definition strict_session : Session :=
  mkSession (λ g h,
    match graphs h !! g with
    | Some d =>
        match graph_outputs d with
        | [] => (Raised (RuntimeError "graph has no output"), h)
        | _ => (Normal tt, h)
        end
    | None => (Raised (RuntimeError "unknown graph"), h)
    end).

(** ** Running the API calls *)

Section steps.
Context {A B : Type}.

Lemma bind_Normal (c : py A) (k : A → py B) w a w' :
  c w = (Normal a, w') → (c ≫= k) w = k a w'.
Proof. intros Hc. unfold mbind, py_bind. by rewrite Hc. Qed.

Lemma bind_Raised (c : py A) (k : A → py B) w e w' :
  c w = (Raised e, w') → (c ≫= k) w = (Raised e, w').
Proof. intros Hc. unfold mbind, py_bind. by rewrite Hc. Qed.
End steps.

Lemma update_graph_run g f d libs G gl tr :
  update_graph g f (mkWorld (mkHost libs (<[g := d]> G)) gl tr)
  = (Normal tt, mkWorld (mkHost libs (<[g := f d]> G)) gl tr).
Proof.
  unfold update_graph; cbn [host graphs libraries globals trace].
  by rewrite lookup_insert_eq, insert_insert_eq.
Qed.

Lemma RenderGraph_run name libs G gl tr :
  RenderGraph name (mkWorld (mkHost libs G) gl tr)
  = (Normal (fresh (dom G)),
     mkWorld (mkHost libs (<[fresh (dom G) := new_graph name]> G)) gl
             (tr ++ [CRenderGraph name (fresh (dom G))])).
Proof. reflexivity. Qed.

Lemma loadRenderPassLibrary_run lib libs G gl tr :
  loadRenderPassLibrary lib (mkWorld (mkHost libs G) gl tr)
  = (Normal tt,
     mkWorld (mkHost (libs ++ [lib]) G) gl (tr ++ [CLoadRenderPassLibrary lib])).
Proof. reflexivity. Qed.

Lemma createPass_run type options w :
  createPass type options w
  = (Normal (mkPass type (default ∅ options)),
     mkWorld (host w) (globals w) (trace w ++ [CCreatePass type options])).
Proof. reflexivity. Qed.

Lemma addPass_run g p name d libs G gl tr :
  addPass g p name (mkWorld (mkHost libs (<[g := d]> G)) gl tr)
  = (Normal tt,
     mkWorld (mkHost libs (<[g := Graph_addPass p name d]> G)) gl
             (tr ++ [CAddPass g p name])).
Proof. unfold addPass. erewrite bind_Normal by reflexivity. apply update_graph_run. Qed.

Lemma addEdge_run g src dst d libs G gl tr :
  addEdge g src dst (mkWorld (mkHost libs (<[g := d]> G)) gl tr)
  = (Normal tt,
     mkWorld (mkHost libs (<[g := Graph_addEdge src dst d]> G)) gl
             (tr ++ [CAddEdge g src dst])).
Proof. unfold addEdge. erewrite bind_Normal by reflexivity. apply update_graph_run. Qed.

Lemma markOutput_run g port d libs G gl tr :
  markOutput g port (mkWorld (mkHost libs (<[g := d]> G)) gl tr)
  = (Normal tt,
     mkWorld (mkHost libs (<[g := Graph_markOutput port d]> G)) gl
             (tr ++ [CMarkOutput g port])).
Proof. unfold markOutput. erewrite bind_Normal by reflexivity. apply update_graph_run. Qed.

(** One step of a script: run the next call, continue with the rest. *)
Ltac step :=
  first
    [ erewrite bind_Normal by
        first [ apply addPass_run | apply addEdge_run | apply markOutput_run
              | apply RenderGraph_run | apply loadRenderPassLibrary_run
              | apply createPass_run ]
    | erewrite bind_Normal by reflexivity ];
  cbn [host graphs libraries globals trace].

(** ** What the builders do *)

Lemma builder_run (s : script) (w : World) :
  builder s w = (Normal (fresh (dom (graphs (host w)))), after_builder s w).
Proof.
  destruct w as [[libs G] gl tr]. unfold after_builder.
  cbn [host graphs libraries globals trace].
  destruct s; cbn [builder built_graph loaded_libraries builder_calls].
  - unfold charvl_BSDFViewer.render_graph_DefaultRenderGraph.
    do 7 step. rewrite <- !app_assoc, app_nil_r. reflexivity.
  - unfold charvl_wireless.render_graph_DefaultRenderGraph.
    do 4 step. rewrite <- !app_assoc, app_nil_r. reflexivity.
  - unfold VBufferRT_py.render_graph_VBufferRT.
    do 8 step. rewrite <- !app_assoc. reflexivity.
Qed.

(** A new graph object is none of the existing ones. *)
Lemma fresh_graph (G : gmap nat Graph) : G !! fresh (dom G) = None.
Proof. apply not_elem_of_dom, is_fresh. Qed.

(** ** What the module-level code does *)

(** The script is: bind the builder, call it, bind its result, then the [try]
    statement. *)
Lemma run_split (s : script) (w : World) :
  run s w
  = try_statement s
      (before_try s w (fresh (dom (graphs (host w)))) (after_builder s w)).
Proof.
  pose proof (builder_run s (mkWorld (host w)
    (<[builder_name s := OFunction (builder_name s)]> (globals w)) (trace w)))
    as Hb.
  destruct s; cbn [run]; cbn [builder host graphs] in Hb;
    unfold charvl_BSDFViewer.module_body, charvl_wireless.module_body,
           VBufferRT_py.module_body;
    do 2 (erewrite bind_Normal by reflexivity);
    (erewrite bind_Normal by exact Hb);
    (erewrite bind_Normal by reflexivity); reflexivity.
Qed.

Lemma before_try_m (s : script) (w : World) g wb :
  globals (before_try s w g wb) !! "m" = globals w !! "m".
Proof.
  unfold before_try; cbn [globals].
  rewrite !lookup_insert_ne; [done | by destruct s | by destruct s].
Qed.

Lemma before_try_variable (s : script) (w : World) g wb :
  globals (before_try s w g wb) !! graph_variable s = Some (OGraph g).
Proof. unfold before_try; cbn [globals]. apply lookup_insert_eq. Qed.

Lemma try_absent (s : script) (w1 : World) :
  globals w1 !! "m" = None → try_statement s w1 = (Normal tt, w1).
Proof.
  intros Hm. unfold try_statement, try_except.
  erewrite bind_Raised by (unfold load_global; rewrite Hm; reflexivity).
  reflexivity.
Qed.

Lemma try_session (s : script) (w1 : World) (ses : Session) (g : loc) :
  globals w1 !! "m" = Some (OSession ses) →
  globals w1 !! graph_variable s = Some (OGraph g) →
  try_statement s w1
  = (guard (addGraph ses g (host w1)).1,
     mkWorld (addGraph ses g (host w1)).2 (globals w1)
             (trace w1 ++ [CAddGraph g])).
Proof.
  intros Hm Hv. unfold try_statement, try_except.
  assert (load_global "m" w1 = (Normal (OSession ses), w1)) as Hlm
    by (unfold load_global; by rewrite Hm).
  assert (load_global (graph_variable s) w1 = (Normal (OGraph g), w1)) as Hlv
    by (unfold load_global; by rewrite Hv).
  erewrite bind_Normal by exact Hlm.
  erewrite bind_Normal by reflexivity.
  erewrite bind_Normal by exact Hlv.
  unfold call_addGraph. erewrite bind_Normal by reflexivity.
  unfold in_host; cbn [host globals trace].
  destruct (addGraph ses g (host w1)) as [[[]|e] h]; cbn [guard fst snd];
    [reflexivity |].
  destruct (isinstance e "NameError"); reflexivity.
Qed.

Lemma try_not_session (s : script) (w1 : World) (o : object) :
  globals w1 !! "m" = Some o →
  (∀ ses, o ≠ OSession ses) →
  try_statement s w1 = (Raised (AttributeError "addGraph"), w1).
Proof.
  intros Hm Ho. unfold try_statement, try_except.
  assert (load_global "m" w1 = (Normal o, w1)) as Hlm
    by (unfold load_global; by rewrite Hm).
  erewrite bind_Normal by exact Hlm.
  destruct o as [g|ses|f|v]; [reflexivity | by destruct (Ho ses) | reflexivity..].
Qed.

(** ** The graphs the scripts build *)

(** C1: started in any world, the builder of [charvl.BSDFViewer.py] returns a
    new graph object that holds exactly two passes, ["BSDFViewer"] of type
    ["BSDFViewer"] created with option [materialID = 0] and ["AccumulatePass"]
    of type ["AccumulatePass"] created with options [enabled = True] and
    [precisionMode = AccumulatePrecision.Double], exactly one edge, from
    [BSDFViewer.output] to [AccumulatePass.input], and exactly one marked
    output, [AccumulatePass.output]. *)
Theorem BSDFViewer_graph (w : World) :
  ∃ g w' d,
    charvl_BSDFViewer.render_graph_DefaultRenderGraph w = (Normal g, w')
    ∧ graphs (host w) !! g = None
    ∧ graphs (host w') !! g = Some d
    ∧ graph_passes d
      = [("BSDFViewer", mkPass "BSDFViewer" {[ "materialID" := VInt 0 ]});
         ("AccumulatePass",
          mkPass "AccumulatePass"
            (<[ "precisionMode" := VEnum "AccumulatePrecision" "Double" ]>
               {[ "enabled" := VBool true ]}))]
    ∧ graph_edges d = [("BSDFViewer.output", "AccumulatePass.input")]
    ∧ graph_outputs d = ["AccumulatePass.output"]
    ∧ trace w'
      = (trace w ++
        [CRenderGraph "DefaultRenderGraph" g;
         CCreatePass "BSDFViewer" (Some {[ "materialID" := VInt 0 ]});
         CAddPass g (mkPass "BSDFViewer" {[ "materialID" := VInt 0 ]})
                  "BSDFViewer";
         CCreatePass "AccumulatePass"
           (Some (<[ "precisionMode" := VEnum "AccumulatePrecision" "Double" ]>
                    {[ "enabled" := VBool true ]}));
         CAddPass g
           (mkPass "AccumulatePass"
              (<[ "precisionMode" := VEnum "AccumulatePrecision" "Double" ]>
                 {[ "enabled" := VBool true ]}))
           "AccumulatePass";
         CAddEdge g "BSDFViewer.output" "AccumulatePass.input";
         CMarkOutput g "AccumulatePass.output"])%list.
Proof.
  eexists _, _, _. split; [apply (builder_run BSDFViewer_script) |].
  split; [apply fresh_graph |].
  split; [apply lookup_insert_eq |].
  repeat split.
Qed.

(** C2: started in any world, the builder of [VBufferRT.py] returns a new graph
    object that holds exactly one pass, ["VBufferRT"] of type ["VBufferRT"],
    no edge, and the four marked outputs [VBufferRT.vbuffer],
    [VBufferRT.depth], [VBufferRT.mvec], [VBufferRT.viewW] in that order; the
    library ["GBuffer.dll"] is loaded, and the call that loads it comes before
    every graph-construction call. *)
Theorem VBufferRT_graph (w : World) :
  ∃ g w' d,
    VBufferRT_py.render_graph_VBufferRT w = (Normal g, w')
    ∧ graphs (host w) !! g = None
    ∧ graphs (host w') !! g = Some d
    ∧ graph_passes d = [("VBufferRT", mkPass "VBufferRT" ∅)]
    ∧ graph_edges d = []
    ∧ graph_outputs d
      = ["VBufferRT.vbuffer"; "VBufferRT.depth"; "VBufferRT.mvec";
         "VBufferRT.viewW"]
    ∧ libraries (host w') = (libraries (host w) ++ ["GBuffer.dll"])%list
    ∧ trace w'
      = (trace w ++
        CLoadRenderPassLibrary "GBuffer.dll" ::
        [CRenderGraph "VBufferRT" g;
         CCreatePass "VBufferRT" None;
         CAddPass g (mkPass "VBufferRT" ∅) "VBufferRT";
         CMarkOutput g "VBufferRT.vbuffer";
         CMarkOutput g "VBufferRT.depth";
         CMarkOutput g "VBufferRT.mvec";
         CMarkOutput g "VBufferRT.viewW"])%list.
Proof.
  eexists _, _, _. split; [apply (builder_run VBufferRT_script) |].
  split; [apply fresh_graph |].
  split; [apply lookup_insert_eq |].
  repeat split.
Qed.

(** C3: started in any world, the builder of [charvl.wireless.py] returns a new
    graph object that holds exactly one pass, named ["wireframe"], created
    with type ['wireframe'] and no options, no edge, and exactly one marked
    output, [wireframe.output]. *)
Theorem wireframe_graph (w : World) :
  ∃ g w' d,
    charvl_wireless.render_graph_DefaultRenderGraph w = (Normal g, w')
    ∧ graphs (host w) !! g = None
    ∧ graphs (host w') !! g = Some d
    ∧ graph_passes d = [("wireframe", mkPass "wireframe" ∅)]
    ∧ graph_edges d = []
    ∧ graph_outputs d = ["wireframe.output"]
    ∧ trace w'
      = (trace w ++
        [CRenderGraph "DefaultRenderGraph" g;
         CCreatePass "wireframe" None;
         CAddPass g (mkPass "wireframe" ∅) "wireframe";
         CMarkOutput g "wireframe.output"])%list.
Proof.
  eexists _, _, _. split; [apply (builder_run wireless_script) |].
  split; [apply fresh_graph |].
  split; [apply lookup_insert_eq |].
  repeat split.
Qed.

(** C9: the graphs built by the two Mogwai scripts, [charvl.BSDFViewer.py] and
    [charvl.wireless.py], are both named ['DefaultRenderGraph'] (for the
    wireframe script that is not ['wireframe']); the graph built by
    [VBufferRT.py] is named ["VBufferRT"]. *)
Theorem graph_names (s : script) (w : World) :
  ∃ g w' d,
    builder s w = (Normal g, w')
    ∧ graphs (host w') !! g = Some d
    ∧ graph_name d
      = match s with
        | BSDFViewer_script => "DefaultRenderGraph"
        | wireless_script => "DefaultRenderGraph"
        | VBufferRT_script => "VBufferRT"
        end
    ∧ (s = wireless_script → graph_name d ≠ "wireframe").
Proof.
  eexists _, _, _. split; [apply builder_run |].
  split; [apply lookup_insert_eq |].
  split; [by destruct s |].
  by intros ->.
Qed.

(** ** The registration guard *)

(** C5: when [m] is not defined, evaluating any of the three scripts completes
    without raising. *)
Theorem no_session_no_error (s : script) (w : World) :
  globals w !! "m" = None →
  (run s w).1 = Normal tt.
Proof.
  intros Hm. rewrite run_split, try_absent; [done |].
  by rewrite before_try_m.
Qed.

(** Evaluated standalone, each of the three scripts ends normally. *)
Lemma no_session_no_error_standalone :
  globals standalone_world !! "m" = None
  ∧ (run BSDFViewer_script standalone_world).1 = Normal tt
  ∧ (run wireless_script standalone_world).1 = Normal tt
  ∧ (run VBufferRT_script standalone_world).1 = Normal tt.
Proof.
  split; [reflexivity |].
  split; [| split].
  - exact (no_session_no_error BSDFViewer_script standalone_world eq_refl).
  - exact (no_session_no_error wireless_script standalone_world eq_refl).
  - exact (no_session_no_error VBufferRT_script standalone_world eq_refl).
Defined.

(** C4: in each of the three scripts the guard around [m.addGraph] catches
    [NameError] and nothing else, and its handler does nothing.  With [g] the
    graph the builder returned and [w1] the world in which the [try] statement
    starts: if [m] is absent the script ends normally in [w1]; if [m] is a
    session whose [addGraph] raises [e], the script ends in the world the call
    left, normally when [e] is a [NameError] and raising [e] itself when it is
    any other exception; an [m] without [addGraph] makes the script raise
    [AttributeError]. *)
Theorem guard_catches_NameError_only (s : script) (w : World) :
  ∃ g wb,
    builder s w = (Normal g, wb)
    ∧ (globals w !! "m" = None →
       load_global "m" (before_try s w g wb)
       = (Raised (NameError "m"), before_try s w g wb)
       ∧ isinstance (NameError "m") "NameError" = true
       ∧ run s w = (Normal tt, before_try s w g wb))
    ∧ (∀ ses e h,
         globals w !! "m" = Some (OSession ses) →
         addGraph ses g (host wb) = (Raised e, h) →
         run s w
         = (if isinstance e "NameError" then Normal tt else Raised e,
            mkWorld h (globals (before_try s w g wb))
                    (trace wb ++ [CAddGraph g])))
    ∧ (∀ o,
         globals w !! "m" = Some o →
         (∀ ses, o ≠ OSession ses) →
         run s w = (Raised (AttributeError "addGraph"), before_try s w g wb)
         ∧ isinstance (AttributeError "addGraph") "NameError" = false).
Proof.
  eexists _, _. split; [apply builder_run |].
  split; [| split].
  - intros Hm. split; [| split; [reflexivity |]].
    + unfold load_global. by rewrite before_try_m, Hm.
    + rewrite run_split. apply try_absent. by rewrite before_try_m.
  - intros ses e h Hm He. rewrite run_split.
    erewrite try_session;
      [| by rewrite before_try_m | apply before_try_variable].
    cbn [before_try host]. by rewrite He.
  - intros o Hm Ho. split; [| reflexivity].
    rewrite run_split. eapply try_not_session; [| done].
    by rewrite before_try_m.
Qed.

(** A [RuntimeError] of the session goes through the guard; a [NameError] is
    caught, whichever name it is about; without [m] the script ends in the
    world the [try] statement started in. *)
Lemma guard_examples :
  globals (session_world (raising_session (RuntimeError "device removed")))
    !! "m"
  = Some (OSession (raising_session (RuntimeError "device removed")))
  ∧ (run VBufferRT_script
       (session_world (raising_session (RuntimeError "device removed")))).1
    = Raised (RuntimeError "device removed")
  ∧ (run wireless_script
       (session_world (raising_session (NameError "pass")))).1
    = Normal tt
  ∧ globals standalone_world !! "m" = None
  ∧ run BSDFViewer_script standalone_world
    = (Normal tt,
       before_try BSDFViewer_script standalone_world 0
         (after_builder BSDFViewer_script standalone_world)).
Proof.
  split; [reflexivity |]. split; [| split; [| split; [reflexivity |]]].
  - destruct (guard_catches_NameError_only VBufferRT_script
                (session_world (raising_session (RuntimeError "device removed"))))
      as (g & wb & _ & _ & Hses & _).
    by rewrite (Hses _ _ (host wb) eq_refl eq_refl).
  - destruct (guard_catches_NameError_only wireless_script
                (session_world (raising_session (NameError "pass"))))
      as (g & wb & _ & _ & Hses & _).
    by rewrite (Hses _ _ (host wb) eq_refl eq_refl).
  - destruct (guard_catches_NameError_only BSDFViewer_script standalone_world)
      as (g & wb & Hb & Habs & _ & _).
    destruct (Habs eq_refl) as (_ & _ & ->).
    rewrite builder_run in Hb. by injection Hb as <- <-.
Defined.

(** C10: when [m] is absent the registration attempt fails with [NameError]
    and changes nothing: after the script the module-level variable is still
    bound to the graph object the builder returned, and that object holds the
    descriptor the builder left in it. *)
Theorem failed_registration_keeps_graph (s : script) (w : World) :
  globals w !! "m" = None →
  ∃ g wb d w',
    builder s w = (Normal g, wb)
    ∧ graphs (host wb) !! g = Some d
    ∧ try_statement s (before_try s w g wb) = (Normal tt, before_try s w g wb)
    ∧ run s w = (Normal tt, w')
    ∧ globals w' !! graph_variable s = Some (OGraph g)
    ∧ host w' = host wb
    ∧ graphs (host w') !! g = Some d
    ∧ d = built_graph s.
Proof.
  intros Hm.
  assert (try_statement s
            (before_try s w (fresh (dom (graphs (host w)))) (after_builder s w))
          = (Normal tt,
             before_try s w (fresh (dom (graphs (host w)))) (after_builder s w)))
    as Htry by (apply try_absent; by rewrite before_try_m).
  eexists _, _, _, _. split; [apply builder_run |].
  split; [apply lookup_insert_eq |].
  split; [exact Htry |].
  split; [by rewrite run_split |].
  split; [apply before_try_variable |].
  split; [reflexivity |].
  split; [apply lookup_insert_eq | reflexivity].
Qed.


(** ** The lifecycle of the graph *)

(** C8: a script makes the calls of one run of its builder, among them
    exactly one [RenderGraph] and no [addGraph].  When [m] is a session it then
    calls [m.addGraph] once, on the graph object the builder returned and the
    module-level variable is bound to, and that call is the last thing that
    happens: the script ends in the host state the call left.  When [m] is not
    a session nothing follows the builder's calls. *)
Theorem registered_once (s : script) (w : World) :
  ∃ g wb cs,
    builder s w = (Normal g, wb)
    ∧ trace wb = (trace w ++ cs)%list
    ∧ length (List.filter is_RenderGraph cs) = 1
    ∧ List.filter is_addGraph cs = []
    ∧ (∀ ses,
         globals w !! "m" = Some (OSession ses) →
         run s w
         = (guard (addGraph ses g (host wb)).1,
            mkWorld (addGraph ses g (host wb)).2
                    (<[graph_variable s := OGraph g]>
                       (<[builder_name s := OFunction (builder_name s)]>
                          (globals w)))
                    (trace w ++ cs ++ [CAddGraph g])%list))
    ∧ ((∀ ses, globals w !! "m" ≠ Some (OSession ses)) →
       trace (run s w).2 = (trace w ++ cs)%list
       ∧ host (run s w).2 = host wb).
Proof.
  exists (fresh (dom (graphs (host w)))), (after_builder s w),
         (builder_calls s (fresh (dom (graphs (host w))))).
  split; [apply builder_run |].
  split; [reflexivity |].
  split; [by destruct s |].
  split; [by destruct s |].
  split.
  - intros ses Hm. rewrite run_split.
    erewrite try_session;
      [| by rewrite before_try_m | apply before_try_variable].
    cbn [before_try after_builder host globals trace].
    by rewrite <- app_assoc.
  - intros Hm. rewrite run_split.
    destruct (globals w !! "m") as [o |] eqn:Ho.
    + erewrite try_not_session; [done | by rewrite before_try_m |].
      intros ses ->. by destruct (Hm ses).
    + rewrite try_absent; [done | by rewrite before_try_m].
Qed.

(** ** Ports refer to passes already added *)

Lemma added_passes_elem (g : loc) (cs : list call) (pass : string) :
  pass ∈ added_passes g cs → ∃ p, CAddPass g p pass ∈ cs.
Proof.
  unfold added_passes. rewrite list_elem_of_In, in_flat_map.
  intros (c & Hc & Hpass). apply list_elem_of_In in Hc.
  destruct c as [ | | | g' p name | | | ]; try (by destruct Hpass).
  destruct (decide (g' = g)) as [-> |]; [| by destruct Hpass].
  destruct Hpass as [-> | []]. by exists p.
Qed.

Lemma ports_known_sound (cs seen : list call) :
  ports_known seen cs = true →
  ∀ pre c post g port,
    cs = (pre ++ c :: post)%list →
    (g, port) ∈ ports_of_call c →
    ∃ pass, pass ∈ added_passes g (seen ++ pre)%list
            ∧ port_of_pass port pass = true.
Proof.
  revert seen. induction cs as [| c0 cs IH]; intros seen Hk pre c post g port Hcs Hin.
  - by destruct pre.
  - cbn [ports_known] in Hk. apply andb_true_iff in Hk as [Hc0 Hrest].
    destruct pre as [| c1 pre]; cbn [app] in Hcs; injection Hcs as -> ->.
    + rewrite app_nil_r.
      rewrite forallb_forall in Hc0.
      apply list_elem_of_In, Hc0, existsb_exists in Hin.
      destruct Hin as (pass & Hpass & Hport).
      exists pass. by rewrite list_elem_of_In.
    + destruct (IH _ Hrest pre c post g port eq_refl Hin) as (pass & Hpass & Hport).
      exists pass. by rewrite <- app_assoc in Hpass.
Qed.

Lemma builder_calls_ports_known (s : script) (g : loc) :
  ports_known [] (builder_calls s g) = true.
Proof.
  destruct s; cbn [builder_calls ports_known ports_of_call forallb app andb];
    unfold added_passes; cbn [flat_map app];
    rewrite !decide_True by done; reflexivity.
Qed.

(** C6: in the call sequence of each builder, at every step, each port that an
    [addEdge] or [markOutput] call refers to is a port [<pass>.<...>] of a
    pass that an earlier [addPass] call added to the same graph. *)
Theorem ports_refer_to_added_passes (s : script) (w : World) :
  ∃ g w' cs,
    builder s w = (Normal g, w')
    ∧ trace w' = (trace w ++ cs)%list
    ∧ ∀ pre c post g' port,
        cs = (pre ++ c :: post)%list →
        (g', port) ∈ ports_of_call c →
        ∃ pass p, CAddPass g' p pass ∈ pre ∧ port_of_pass port pass = true.
Proof.
  exists (fresh (dom (graphs (host w)))), (after_builder s w),
         (builder_calls s (fresh (dom (graphs (host w))))).
  split; [apply builder_run |]. split; [reflexivity |].
  intros pre c post g' port Hcs Hin.
  destruct (ports_known_sound _ [] (builder_calls_ports_known s _)
              pre c post g' port Hcs Hin) as (pass & Hpass & Hport).
  apply added_passes_elem in Hpass as [p Hp].
  by exists pass, p.
Qed.

(** ** Running a builder again *)

(** C7: a builder yields the same descriptor whatever world it is started in:
    two invocations, in any two worlds, return graph objects that hold equal
    descriptors (name, passes with types and options in order, edges, marked
    outputs).  In particular, when a builder is run twice in a row, the second
    run returns another graph object with the same descriptor and leaves the
    first one as it was. *)
Theorem builder_rerun (s : script) (w1 w2 : World) :
  ∃ d,
    (∃ g1 w1' g2 w2',
       builder s w1 = (Normal g1, w1')
       ∧ builder s w2 = (Normal g2, w2')
       ∧ graphs (host w1') !! g1 = Some d
       ∧ graphs (host w2') !! g2 = Some d)
    ∧ (∃ g1 g2 w',
         (g1 ← builder s; g2 ← builder s; mret (g1, g2)) w1
         = (Normal (g1, g2), w')
         ∧ g1 ≠ g2
         ∧ graphs (host w') !! g1 = Some d
         ∧ graphs (host w') !! g2 = Some d).
Proof.
  exists (built_graph s). split.
  - eexists _, _, _, _. split; [apply builder_run |].
    split; [apply builder_run |].
    split; apply lookup_insert_eq.
  - set (g1 := fresh (dom (graphs (host w1)))).
    set (g2 := fresh (dom (graphs (host (after_builder s w1))))).
    assert (g1 ≠ g2) as Hne.
    { intros Heq. pose proof (fresh_graph (graphs (host (after_builder s w1)))) as Hf.
      fold g2 in Hf. rewrite <- Heq in Hf.
      unfold after_builder in Hf; cbn [host graphs] in Hf. fold g1 in Hf.
      by rewrite lookup_insert_eq in Hf. }
    exists g1, g2, (after_builder s (after_builder s w1)).
    split.
    { erewrite bind_Normal by apply builder_run.
      erewrite bind_Normal by apply builder_run. reflexivity. }
    split; [exact Hne |].
    unfold after_builder at 1; cbn [host graphs]. fold g2.
    split; [| apply lookup_insert_eq].
    rewrite lookup_insert_ne by done.
    unfold after_builder; cbn [host graphs]. fold g1. apply lookup_insert_eq.
Qed.

(** Evaluated standalone, the BSDF-viewer script leaves [DefaultRenderGraph]
    bound to the graph it built. *)
Lemma failed_registration_example :
  globals standalone_world !! "m" = None
  ∧ ∃ g,
      globals (run BSDFViewer_script standalone_world).2 !! "DefaultRenderGraph"
      = Some (OGraph g)
      ∧ graphs (host (run BSDFViewer_script standalone_world).2) !! g
        = Some (built_graph BSDFViewer_script).
Proof.
  split; [reflexivity |].
  destruct (failed_registration_keeps_graph BSDFViewer_script standalone_world
              eq_refl)
    as (g & wb & d & w' & _ & _ & _ & Hrun & Hvar & _ & Hg & ->).
  exists g. rewrite Hrun. split; [exact Hvar | exact Hg].
Defined.

(** With an accepting session, the wireframe script registers the graph its
    variable is bound to, once; evaluated standalone it makes the builder's
    four calls and no other. *)
Lemma registered_once_example :
  globals (session_world accepting_session) !! "m"
  = Some (OSession accepting_session)
  ∧ (∃ g,
       List.filter is_addGraph
         (trace (run wireless_script (session_world accepting_session)).2)
       = [CAddGraph g]
       ∧ globals (run wireless_script (session_world accepting_session)).2
           !! "DefaultRenderGraph"
         = Some (OGraph g))
  ∧ length (trace (run wireless_script standalone_world).2) = 4.
Proof.
  split; [reflexivity |]. split.
  - destruct (registered_once wireless_script (session_world accepting_session))
      as (g & wb & cs & _ & _ & _ & Hnone & Hrun & _).
    exists g. rewrite (Hrun accepting_session eq_refl).
    cbn [snd trace globals graph_variable].
    split; [| apply lookup_insert_eq].
    by rewrite !List.filter_app, Hnone.
  - destruct (registered_once wireless_script standalone_world)
      as (g & wb & cs & Hb & Hcs & _ & _ & _ & Habs).
    destruct Habs as [-> _]; [done |].
    rewrite builder_run in Hb. injection Hb as _ <-.
    apply app_inv_head in Hcs. by rewrite <- Hcs.
Defined.

(** A call sequence that marks an output before its pass is added is told
    apart from the scripts' sequences. *)
Example ports_known_rejects :
  ports_known []
    [CRenderGraph "DefaultRenderGraph" 0;
     CMarkOutput 0 "wireframe.output";
     CAddPass 0 (mkPass "wireframe" ∅) "wireframe"]
  = false.
Proof. reflexivity. Qed.

(** ** What a script leaves alone *)

Lemma run_absent (s : script) (w : World) :
  globals w !! "m" = None →
  run s w
  = (Normal tt,
     before_try s w (fresh (dom (graphs (host w)))) (after_builder s w)).
Proof.
  intros Hm. rewrite run_split. apply try_absent. by rewrite before_try_m.
Qed.


(** X1: a builder makes one new graph object and works on that one only:
    every graph object the host held before is still there with the
    descriptor it had, and the host holds exactly one object more. *)
Theorem builder_keeps_other_graphs (s : script) (w : World) (g' : loc)
    (d' : Graph) :
  graphs (host w) !! g' = Some d' →
  ∃ g w',
    builder s w = (Normal g, w')
    ∧ g ≠ g'
    ∧ graphs (host w') !! g' = Some d'
    ∧ dom (graphs (host w')) = {[g]} ∪ dom (graphs (host w))
    ∧ g ∉ dom (graphs (host w)).
Proof.
  intros Hg'. eexists _, _. split; [apply builder_run |].
  assert (fresh (dom (graphs (host w))) ≠ g') as Hne.
  { intros Heq. pose proof (fresh_graph (graphs (host w))) as Hf.
    rewrite Heq, Hg' in Hf. discriminate. }
  split; [exact Hne |].
  unfold after_builder; cbn [host graphs].
  split; [by rewrite lookup_insert_ne |].
  split; [apply dom_insert_L | apply is_fresh].
Qed.

(** In a host that holds a tone-mapping graph, the wireframe builder leaves
    that graph as it was. *)
Lemma builder_keeps_other_graphs_example :
  graphs (host busy_world) !! 0
  = Some (mkGraph "Existing" [("ToneMapper", mkPass "ToneMapper" ∅)] []
                  ["ToneMapper.dst"])
  ∧ graphs (host (builder wireless_script busy_world).2) !! 0
    = Some (mkGraph "Existing" [("ToneMapper", mkPass "ToneMapper" ∅)] []
                    ["ToneMapper.dst"]).
Proof.
  split; [reflexivity |].
  destruct (builder_keeps_other_graphs wireless_script busy_world 0 _ eq_refl)
    as (g & w' & Hb & _ & Hkeep & _).
  by rewrite Hb.
Defined.



(** ** Evaluating several scripts *)



(** X4: without [m], any number [n] of evaluations of a script in a row ends
    normally and leaves [m] unbound.  No evaluation reuses what an earlier one
    did: the host receives [n] [RenderGraph] calls, the library load of
    [VBufferRT.py] is repeated on every evaluation, and no [addGraph] call is
    made. *)
Theorem repeated_runs (n : nat) (s : script) (w : World) :
  globals w !! "m" = None →
  ∃ w' new,
    run_n n s w = (Normal tt, w')
    ∧ globals w' !! "m" = None
    ∧ trace w' = (trace w ++ new)%list
    ∧ length (List.filter is_RenderGraph new) = n
    ∧ length (List.filter is_loadRenderPassLibrary new)
      = n * match s with VBufferRT_script => 1 | _ => 0 end
    ∧ List.filter is_addGraph new = [].
Proof.
  revert w. induction n as [| n IH]; intros w Hm.
  - exists w, []. cbn [run_n]. by rewrite app_nil_r.
  - set (g := fresh (dom (graphs (host w)))).
    set (w1 := before_try s w g (after_builder s w)).
    assert (globals w1 !! "m" = None) as Hm1
      by (unfold w1; by rewrite before_try_m).
    destruct (IH w1 Hm1) as (w' & new & Hrun & Hm' & Htr & Hrg & Hld & Hag).
    exists w', (builder_calls s g ++ new)%list.
    split.
    { cbn [run_n]. by erewrite bind_Normal by (apply run_absent, Hm). }
    split; [exact Hm' |].
    split.
    { rewrite Htr. unfold w1; cbn [before_try after_builder trace].
      by rewrite <- app_assoc. }
    rewrite !List.filter_app, !length_app, Hrg, Hld, Hag.
    by destruct s.
Qed.

(** Three evaluations of [VBufferRT.py]: three graphs made, the library
    loaded three times. *)
Lemma repeated_runs_example :
  globals standalone_world !! "m" = None
  ∧ ∃ w',
      run_n 3 VBufferRT_script standalone_world = (Normal tt, w')
      ∧ length (List.filter is_RenderGraph (trace w')) = 3
      ∧ length (List.filter is_loadRenderPassLibrary (trace w')) = 3.
Proof.
  split; [reflexivity |].
  destruct (repeated_runs 3 VBufferRT_script standalone_world eq_refl)
    as (w' & new & Hrun & _ & Htr & Hrg & Hld & _).
  exists w'. split; [exact Hrun |].
  rewrite Htr. split; [exact Hrg | exact Hld].
Defined.

(** ** What the session is handed *)

(** X5: when [m] is a session, [m.addGraph] is called after construction is
    complete.  The host state it is called in already holds the fully built
    graph under the reference it is passed, the libraries the builder loaded,
    and every graph object that was there before, unchanged; the module-level
    variable is already bound to that reference. *)
Theorem session_receives_built_graph (s : script) (w : World) (ses : Session) :
  globals w !! "m" = Some (OSession ses) →
  ∃ g h w1,
    run s w
    = (guard (addGraph ses g h).1,
       mkWorld (addGraph ses g h).2 (globals w1) (trace w1 ++ [CAddGraph g]))
    ∧ host w1 = h
    ∧ globals w1 !! graph_variable s = Some (OGraph g)
    ∧ graphs h !! g = Some (built_graph s)
    ∧ libraries h
      = (libraries (host w)
           ++ match s with VBufferRT_script => ["GBuffer.dll"] | _ => [] end)%list
    ∧ (∀ g' d', graphs (host w) !! g' = Some d' → graphs h !! g' = Some d').
Proof.
  intros Hm.
  exists (fresh (dom (graphs (host w)))), (host (after_builder s w)),
         (before_try s w (fresh (dom (graphs (host w)))) (after_builder s w)).
  split.
  { rewrite run_split.
    erewrite try_session;
      [reflexivity | by rewrite before_try_m | apply before_try_variable]. }
  split; [reflexivity |].
  split; [apply before_try_variable |].
  split; [apply lookup_insert_eq |].
  split; [by destruct s |].
  intros g' d' Hg'. unfold after_builder; cbn [host graphs].
  rewrite lookup_insert_ne; [done |].
  intros Heq. pose proof (fresh_graph (graphs (host w))) as Hf.
  rewrite Heq, Hg' in Hf. discriminate.
Qed.

(** The strict session accepts the graph of each of the three scripts: the
    graph it is handed has its outputs already. *)
Lemma session_receives_built_graph_example :
  globals (session_world strict_session) !! "m" = Some (OSession strict_session)
  ∧ (run BSDFViewer_script (session_world strict_session)).1 = Normal tt
  ∧ (run wireless_script (session_world strict_session)).1 = Normal tt
  ∧ (run VBufferRT_script (session_world strict_session)).1 = Normal tt.
Proof.
  split; [reflexivity |].
  split; [| split].
  - destruct (session_receives_built_graph BSDFViewer_script
                (session_world strict_session) strict_session eq_refl)
      as (g & h & w1 & Hrun & _ & _ & Hg & _).
    rewrite Hrun. cbn [fst strict_session addGraph]. by rewrite Hg.
  - destruct (session_receives_built_graph wireless_script
                (session_world strict_session) strict_session eq_refl)
      as (g & h & w1 & Hrun & _ & _ & Hg & _).
    rewrite Hrun. cbn [fst strict_session addGraph]. by rewrite Hg.
  - destruct (session_receives_built_graph VBufferRT_script
                (session_world strict_session) strict_session eq_refl)
      as (g & h & w1 & Hrun & _ & _ & Hg & _).
    rewrite Hrun. cbn [fst strict_session addGraph]. by rewrite Hg.
Defined.

(** ** How a script can fail *)


